(** * Pointer-authentication options: clang/Basic/PointerAuthOptions.h

    A shallow embedding of [clang::PointerAuthSchema] and
    [clang::PointerAuthOptions], and the properties of the schema encoding.

    The schema is a union of three bit-field structs over one [unsigned]
    storage unit.  The union is modelled as that storage unit (a [Z]), the
    bit-fields as slices of it, allocated from the least significant bit in
    declaration order (the layout of the Itanium C++ ABI on little-endian
    targets):

      bits 0-1  Kind                    (Common, Soft, ARM8_3)
      bit  2    AddressDiscriminated    (Common, Soft, ARM8_3)
      bits 3-4  Discrimination          (Common, Soft, ARM8_3)
      bits 5-7  Soft.Key
      bits 5-6  ARM8_3.Key

    [assert] and [llvm_unreachable] are modelled as they behave in a build
    with assertions enabled: the call does not return a value but stops with
    the failed condition or the message. *)

From Stdlib Require Import ZArith List String Bool Lia.
Import ListNotations.
Local Open Scope Z_scope.

(** ** Bit-fields of a storage unit *)

Module BitField.

(** Reading the bit-field of [width] bits at bit offset [off]. *)
Definition load (off width w : Z) : Z :=
  Z.land (Z.shiftr w off) (Z.ones width).

(** Assigning [v] to the bit-field: [v] is truncated to [width] bits and
    the other bits of the storage unit are kept. *)
Definition store (off width v w : Z) : Z :=
  Z.lor (Z.ldiff w (Z.shiftl (Z.ones width) off))
        (Z.shiftl (Z.land v (Z.ones width)) off).

End BitField.

(** ** Scoped enumerations

    A C++ [enum class] without an explicit base has underlying type [int]:
    its values are the declared enumerators and every other integer cast to
    it.  [E] lists the enumerators; [enum_value E] is the type the C++
    expressions have. *)

Class ScopedEnum (E : Type) : Type := {
  underlying : E -> Z;
  enumerators : list E
}.

Inductive enum_value (E : Type) : Type :=
| Enumerator (e : E)
| OutOfRange (raw : Z).

Arguments Enumerator {E} e.
Arguments OutOfRange {E} raw.

Section Casts.
Context {E : Type} `{ScopedEnum E}.

Definition enum_underlying (x : enum_value E) : Z :=
  match x with
  | Enumerator e => underlying e
  | OutOfRange raw => raw
  end.

(** [unsigned(x)]: the conversion of the underlying [int] to the 32-bit
    [unsigned]. *)
Definition enum_unsigned (x : enum_value E) : Z :=
  enum_underlying x mod 2 ^ 32.

(** [E(n)] *)
Definition enum_cast (n : Z) : enum_value E :=
  match find (fun e => underlying e =? n) enumerators with
  | Some e => Enumerator e
  | None => OutOfRange n
  end.

(** [x == y] and [x != y] on enumeration values compare the underlying
    integers. *)
Definition enum_eqb (x y : enum_value E) : bool :=
  enum_underlying x =? enum_underlying y.

Definition enum_neqb (x y : enum_value E) : bool :=
  negb (enum_eqb x y).
End Casts.

(** ** Faulting calls *)

Inductive result (A : Type) : Type :=
| Ok (a : A)
| AssertionFailed (expr : string)
| Unreachable (msg : string).

Arguments Ok {A} a.
Arguments AssertionFailed {A} expr.
Arguments Unreachable {A} msg.

Definition bind {A B : Type} (m : result A) (k : A -> result B) : result B :=
  match m with
  | Ok a => k a
  | AssertionFailed e => AssertionFailed e
  | Unreachable msg => Unreachable msg
  end.

Notation "x <- m ;; k" := (bind m (fun x => k))
  (at level 61, m at next level, right associativity).
Notation "m ;;; k" := (bind m (fun _ => k))
  (at level 61, right associativity).

(** [assert(cond)], with [expr] the text of the condition. *)
Definition assert (cond : bool) (expr : string) : result unit :=
  if cond then Ok tt else AssertionFailed expr.

Definition llvm_unreachable {A : Type} (msg : string) : result A :=
  Unreachable msg.

(** A call that stops instead of returning. *)
Definition faults {A : Type} (r : result A) : Prop :=
  match r with
  | Ok _ => False
  | _ => True
  end.

(** ** class PointerAuthSchema *)

Module PointerAuthSchema.

Module Kind.
Inductive t : Type := None | Soft | ARM8_3.

Definition value (k : t) : Z :=
  match k with
  | None => 0
  | Soft => 1
  | ARM8_3 => 2
  end.

Definition all : list t := [None; Soft; ARM8_3].
End Kind.

(** Software pointer-signing "keys". *)
Module SoftKey.
Inductive t : Type :=
| FunctionPointers
| BlockInvocationFunctionPointers
| BlockHelperFunctionPointers
| ObjCMethodListFunctionPointers
| CXXVTablePointers
| CXXVirtualFunctionPointers
| CXXMemberFunctionPointers.

Definition value (k : t) : Z :=
  match k with
  | FunctionPointers => 0
  | BlockInvocationFunctionPointers => 1
  | BlockHelperFunctionPointers => 2
  | ObjCMethodListFunctionPointers => 3
  | CXXVTablePointers => 4
  | CXXVirtualFunctionPointers => 5
  | CXXMemberFunctionPointers => 6
  end.

Definition all : list t :=
  [FunctionPointers; BlockInvocationFunctionPointers;
   BlockHelperFunctionPointers; ObjCMethodListFunctionPointers;
   CXXVTablePointers; CXXVirtualFunctionPointers;
   CXXMemberFunctionPointers].
End SoftKey.

(** Hardware pointer-signing keys in ARM8.3. *)
Module ARM8_3Key.
Inductive t : Type := ASIA | ASIB | ASDA | ASDB.

Definition value (k : t) : Z :=
  match k with
  | ASIA => 0
  | ASIB => 1
  | ASDA => 2
  | ASDB => 3
  end.

Definition all : list t := [ASIA; ASIB; ASDA; ASDB].
End ARM8_3Key.

(** Forms of extra discrimination. *)
Module Discrimination.
Inductive t : Type :=
| None  (* No additional discrimination. *)
| Type_ (* Include a hash of the entity's type. *)
| Decl  (* Include a hash of the entity's identity. *).

Definition value (d : t) : Z :=
  match d with
  | None => 0
  | Type_ => 1
  | Decl => 2
  end.

Definition all : list t := [None; Type_; Decl].
End Discrimination.

#[export] Instance Kind_enum : ScopedEnum Kind.t :=
  {| underlying := Kind.value; enumerators := Kind.all |}.
#[export] Instance SoftKey_enum : ScopedEnum SoftKey.t :=
  {| underlying := SoftKey.value; enumerators := SoftKey.all |}.
#[export] Instance ARM8_3Key_enum : ScopedEnum ARM8_3Key.t :=
  {| underlying := ARM8_3Key.value; enumerators := ARM8_3Key.all |}.
#[export] Instance Discrimination_enum : ScopedEnum Discrimination.t :=
  {| underlying := Discrimination.value; enumerators := Discrimination.all |}.

Definition NumKindBits : Z := 2.

(** The anonymous union: one [unsigned] storage unit, of which the members
    name the low eight bits. *)
Record t : Type := { storage : Z }.

(** A bit-field member of one of the structs of the union. *)
Record member : Type := { offset : Z; width : Z }.

Definition Common_Kind : member :=
  {| offset := 0; width := NumKindBits |}.
Definition Common_AddressDiscriminated : member :=
  {| offset := NumKindBits; width := 1 |}.
Definition Common_Discrimination : member :=
  {| offset := NumKindBits + 1; width := 2 |}.
Definition Soft_Key : member :=
  {| offset := NumKindBits + 1 + 2; width := 3 |}.
Definition ARM8_3_Key : member :=
  {| offset := NumKindBits + 1 + 2; width := 2 |}.

(** A member lies at a non-negative offset and has a non-negative width;
    two members are disjoint when their bit ranges do not meet. *)
Definition well_formed (m : member) : Prop :=
  0 <= offset m /\ 0 <= width m.

Definition disjoint (m m' : member) : Prop :=
  offset m + width m <= offset m' \/ offset m' + width m' <= offset m.

Definition get (m : member) (s : t) : Z :=
  BitField.load (offset m) (width m) (storage s).

Definition set (m : member) (v : Z) (s : t) : t :=
  {| storage := BitField.store (offset m) (width m) v (storage s) |}.

(** The constructors run on storage whose previous content [mem] is
    indeterminate: they assign the members they name and leave every other
    bit of [mem] as it is. *)

(** [PointerAuthSchema()] *)
Definition init (mem : t) : t :=
  set Common_Kind (enum_unsigned (Enumerator Kind.None)) mem.

(** [PointerAuthSchema(SoftKey, bool, Discrimination)] *)
Definition init_Soft (mem : t) (key : SoftKey.t)
    (isAddressDiscriminated : bool)
    (otherDiscrimination : Discrimination.t) : t :=
  let this := set Common_Kind (enum_unsigned (Enumerator Kind.Soft)) mem in
  let this := set Common_AddressDiscriminated
                  (Z.b2z isAddressDiscriminated) this in
  let this := set Common_Discrimination
                  (enum_unsigned (Enumerator otherDiscrimination)) this in
  set Soft_Key (enum_unsigned (Enumerator key)) this.

(** [PointerAuthSchema(ARM8_3Key, bool, Discrimination)] *)
Definition init_ARM8_3 (mem : t) (key : ARM8_3Key.t)
    (isAddressDiscriminated : bool)
    (otherDiscrimination : Discrimination.t) : t :=
  let this := set Common_Kind (enum_unsigned (Enumerator Kind.ARM8_3)) mem in
  let this := set Common_AddressDiscriminated
                  (Z.b2z isAddressDiscriminated) this in
  let this := set Common_Discrimination
                  (enum_unsigned (Enumerator otherDiscrimination)) this in
  set ARM8_3_Key (enum_unsigned (Enumerator key)) this.

Definition getKind (s : t) : enum_value Kind.t :=
  enum_cast (get Common_Kind s).

Definition isEnabled (s : t) : bool :=
  enum_neqb (getKind s) (Enumerator Kind.None).

(** [explicit operator bool()] *)
Definition operator_bool (s : t) : bool :=
  isEnabled s.

Definition isAddressDiscriminated (s : t) : result bool :=
  assert (enum_neqb (getKind s) (Enumerator Kind.None))
         "getKind() != Kind::None" ;;;
  Ok (negb (get Common_AddressDiscriminated s =? 0)).

Definition getOtherDiscrimination (s : t)
  : result (enum_value Discrimination.t) :=
  assert (enum_neqb (getKind s) (Enumerator Kind.None))
         "getKind() != Kind::None" ;;;
  Ok (enum_cast (get Common_Discrimination s)).

Definition hasOtherDiscrimination (s : t) : result bool :=
  d <- getOtherDiscrimination s ;;
  Ok (enum_neqb d (Enumerator Discrimination.None)).

Definition getSoftKey (s : t) : result (enum_value SoftKey.t) :=
  assert (enum_eqb (getKind s) (Enumerator Kind.Soft))
         "getKind() == Kind::Soft" ;;;
  Ok (enum_cast (get Soft_Key s)).

Definition getARM8_3Key (s : t) : result (enum_value ARM8_3Key.t) :=
  assert (enum_eqb (getKind s) (Enumerator Kind.ARM8_3))
         "getKind() == Kind::ARM8_3" ;;;
  Ok (enum_cast (get ARM8_3_Key s)).

Definition getKey (s : t) : result Z :=
  match getKind s with
  | Enumerator Kind.None =>
      llvm_unreachable "calling getKey() on disabled schema"
  | Enumerator Kind.Soft =>
      k <- getSoftKey s ;; Ok (enum_unsigned k)
  | Enumerator Kind.ARM8_3 =>
      k <- getARM8_3Key s ;; Ok (enum_unsigned k)
  | OutOfRange _ =>
      llvm_unreachable "bad key kind"
  end.

End PointerAuthSchema.

(** ** struct PointerAuthOptions *)

Module PointerAuthOptions.

Record t : Type := {
  (* Do member function pointers to virtual functions need to be built
     as thunks? *)
  ThunkCXXVirtualMemberPointers : bool;
  (* Should return addresses be authenticated? *)
  ReturnAddresses : bool;
  (* Do indirect goto label addresses need to be authenticated? *)
  IndirectGotos : bool;
  (* Do authentication failures cause a trap? *)
  AuthTraps : bool;
  (* The ABI for C function pointers. *)
  FunctionPointers : PointerAuthSchema.t;
  (* The ABI for block invocation function pointers. *)
  BlockInvocationFunctionPointers : PointerAuthSchema.t;
  (* The ABI for block object copy/destroy function pointers. *)
  BlockHelperFunctionPointers : PointerAuthSchema.t;
  (* The ABI for __block variable copy/destroy function pointers. *)
  BlockByrefHelperFunctionPointers : PointerAuthSchema.t;
  (* The ABI for Objective-C method lists. *)
  ObjCMethodListFunctionPointers : PointerAuthSchema.t;
  (* The ABI for C++ virtual table pointers as installed in an actual
     class instance. *)
  CXXVTablePointers : PointerAuthSchema.t;
  (* The ABI for C++ virtual table pointers as installed in a VTT. *)
  CXXVTTVTablePointers : PointerAuthSchema.t;
  (* The ABI for most C++ virtual function pointers, i.e. v-table
     entries. *)
  CXXVirtualFunctionPointers : PointerAuthSchema.t;
  (* The ABI for variadic C++ virtual function pointers. *)
  CXXVirtualVariadicFunctionPointers : PointerAuthSchema.t;
  (* The ABI for C++ member function pointers. *)
  CXXMemberFunctionPointers : PointerAuthSchema.t
}.

(** The implicit default constructor, on storage whose previous content is
    [mem]: the flags take their default member initializers and every
    schema member is default-constructed in place. *)
Definition init (mem : t) : t :=
  {| ThunkCXXVirtualMemberPointers := false;
     ReturnAddresses := false;
     IndirectGotos := false;
     AuthTraps := false;
     FunctionPointers :=
       PointerAuthSchema.init (FunctionPointers mem);
     BlockInvocationFunctionPointers :=
       PointerAuthSchema.init (BlockInvocationFunctionPointers mem);
     BlockHelperFunctionPointers :=
       PointerAuthSchema.init (BlockHelperFunctionPointers mem);
     BlockByrefHelperFunctionPointers :=
       PointerAuthSchema.init (BlockByrefHelperFunctionPointers mem);
     ObjCMethodListFunctionPointers :=
       PointerAuthSchema.init (ObjCMethodListFunctionPointers mem);
     CXXVTablePointers :=
       PointerAuthSchema.init (CXXVTablePointers mem);
     CXXVTTVTablePointers :=
       PointerAuthSchema.init (CXXVTTVTablePointers mem);
     CXXVirtualFunctionPointers :=
       PointerAuthSchema.init (CXXVirtualFunctionPointers mem);
     CXXVirtualVariadicFunctionPointers :=
       PointerAuthSchema.init (CXXVirtualVariadicFunctionPointers mem);
     CXXMemberFunctionPointers :=
       PointerAuthSchema.init (CXXMemberFunctionPointers mem) |}.

(** [o.CXXVTablePointers = v]: the implicit copy assignment of the schema
    copies its storage unit. *)
Definition assign_CXXVTablePointers (v : PointerAuthSchema.t) (o : t) : t :=
  {| ThunkCXXVirtualMemberPointers := ThunkCXXVirtualMemberPointers o;
     ReturnAddresses := ReturnAddresses o;
     IndirectGotos := IndirectGotos o;
     AuthTraps := AuthTraps o;
     FunctionPointers := FunctionPointers o;
     BlockInvocationFunctionPointers := BlockInvocationFunctionPointers o;
     BlockHelperFunctionPointers := BlockHelperFunctionPointers o;
     BlockByrefHelperFunctionPointers := BlockByrefHelperFunctionPointers o;
     ObjCMethodListFunctionPointers := ObjCMethodListFunctionPointers o;
     CXXVTablePointers := v;
     CXXVTTVTablePointers := CXXVTTVTablePointers o;
     CXXVirtualFunctionPointers := CXXVirtualFunctionPointers o;
     CXXVirtualVariadicFunctionPointers :=
       CXXVirtualVariadicFunctionPointers o;
     CXXMemberFunctionPointers := CXXMemberFunctionPointers o |}.

End PointerAuthOptions.

(** ** What a caller can learn from a schema

    The union is private: a schema is seen only through its public const
    member functions.  [observe] collects what each of them does. *)

Module Observation.
Import PointerAuthSchema.

Record t : Type := {
  kind : enum_value Kind.t;
  to_bool : bool;
  enabled : bool;
  addressDiscriminated : result bool;
  otherDiscrimination : result (enum_value Discrimination.t);
  hasOther : result bool;
  key : result Z;
  softKey : result (enum_value SoftKey.t);
  arm8_3Key : result (enum_value ARM8_3Key.t)
}.

Definition observe (s : PointerAuthSchema.t) : t :=
  {| kind := getKind s;
     to_bool := operator_bool s;
     enabled := isEnabled s;
     addressDiscriminated := isAddressDiscriminated s;
     otherDiscrimination := getOtherDiscrimination s;
     hasOther := hasOtherDiscrimination s;
     key := getKey s;
     softKey := getSoftKey s;
     arm8_3Key := getARM8_3Key s |}.

(** Two schemas are equal to their users when no member function tells
    them apart. *)
Definition equal (s1 s2 : PointerAuthSchema.t) : Prop :=
  observe s1 = observe s2.

End Observation.

(** ** Schemas a program can hold

    The union is private and the class has no mutating member function: a
    schema comes out of one of the three constructors, run on storage of
    some previous content. *)

Inductive constructed : PointerAuthSchema.t -> Prop :=
| constructed_default (mem : PointerAuthSchema.t) :
    constructed (PointerAuthSchema.init mem)
| constructed_Soft (mem : PointerAuthSchema.t)
    (key : PointerAuthSchema.SoftKey.t) (isAddressDiscriminated : bool)
    (otherDiscrimination : PointerAuthSchema.Discrimination.t) :
    constructed (PointerAuthSchema.init_Soft mem key isAddressDiscriminated
                   otherDiscrimination)
| constructed_ARM8_3 (mem : PointerAuthSchema.t)
    (key : PointerAuthSchema.ARM8_3Key.t) (isAddressDiscriminated : bool)
    (otherDiscrimination : PointerAuthSchema.Discrimination.t) :
    constructed (PointerAuthSchema.init_ARM8_3 mem key isAddressDiscriminated
                   otherDiscrimination).

(** * Properties *)

(** ** Bit-fields *)

Section BitFieldFacts.
Import BitField.

Lemma load_testbit (off width w n : Z) :
  0 <= width -> 0 <= n ->
  Z.testbit (load off width w) n = Z.testbit w (n + off) && (n <? width).
Proof.
  intros Hw Hn. unfold load.
  rewrite Z.land_spec, Z.shiftr_spec, Z.testbit_ones by assumption.
  destruct (Z.leb_spec 0 n); [reflexivity | lia].
Qed.

Lemma store_testbit (off width v w n : Z) :
  0 <= width -> 0 <= off -> 0 <= n ->
  Z.testbit (store off width v w) n =
  if (off <=? n) && (n <? off + width)
  then Z.testbit v (n - off) else Z.testbit w n.
Proof.
  intros Hw Ho Hn. unfold store.
  rewrite Z.lor_spec, Z.ldiff_spec, !Z.shiftl_spec, Z.land_spec,
    Z.testbit_ones by assumption.
  destruct (Z.leb_spec off n) as [Hle | Hlt]; cbn [andb].
  - destruct (Z.leb_spec 0 (n - off)); [cbn [andb] | lia].
    destruct (Z.ltb_spec (n - off) width), (Z.ltb_spec n (off + width));
      try lia; cbn [negb andb];
      rewrite ?andb_true_r, ?andb_false_r, ?orb_false_r; reflexivity.
  - rewrite (Z.testbit_neg_r v) by lia.
    destruct (Z.leb_spec 0 (n - off)); [lia |].
    cbn [andb negb]. rewrite andb_true_r, orb_false_r. reflexivity.
Qed.

Lemma load_store_same (off width v w : Z) :
  0 <= width -> 0 <= off ->
  load off width (store off width v w) = Z.land v (Z.ones width).
Proof.
  intros Hw Ho. apply Z.bits_inj'. intros n Hn.
  rewrite load_testbit, store_testbit, Z.land_spec, Z.testbit_ones
    by lia.
  destruct (Z.leb_spec off (n + off)); [| lia].
  destruct (Z.leb_spec 0 n); [| lia].
  replace (n + off - off) with n by lia.
  destruct (Z.ltb_spec n width), (Z.ltb_spec (n + off) (off + width));
    try lia; cbn [andb]; rewrite ?andb_true_r, ?andb_false_r; reflexivity.
Qed.

Lemma load_store_other (off width off' width' v w : Z) :
  0 <= width -> 0 <= off -> 0 <= width' -> 0 <= off' ->
  off + width <= off' \/ off' + width' <= off ->
  load off' width' (store off width v w) = load off' width' w.
Proof.
  intros Hw Ho Hw' Ho' Hdisj. apply Z.bits_inj'. intros n Hn.
  rewrite !load_testbit, store_testbit by lia.
  destruct (Z.ltb_spec n width'); [| rewrite !andb_false_r; reflexivity].
  destruct (Z.leb_spec off (n + off')), (Z.ltb_spec (n + off') (off + width));
    try lia; reflexivity.
Qed.

Lemma load_range (off width w : Z) :
  0 <= width -> 0 <= load off width w < 2 ^ width.
Proof.
  intros Hw. unfold load. rewrite Z.land_ones by assumption.
  apply Z.mod_pos_bound. apply Z.pow_pos_nonneg; lia.
Qed.

End BitFieldFacts.

(** ** Casts between integers and enumerations *)

Section CastFacts.
Context {E : Type} `{ScopedEnum E}.

Lemma enum_underlying_cast (n : Z) :
  enum_underlying (enum_cast (E := E) n) = n.
Proof.
  unfold enum_cast.
  destruct (find _ enumerators) as [e |] eqn:Hfind; cbn.
  - apply find_some in Hfind. destruct Hfind as [_ Heq].
    apply Z.eqb_eq. exact Heq.
  - reflexivity.
Qed.


Lemma enum_unsigned_cast (n : Z) :
  0 <= n < 2 ^ 32 -> enum_unsigned (enum_cast (E := E) n) = n.
Proof.
  intros Hn. unfold enum_unsigned. rewrite enum_underlying_cast.
  apply Z.mod_small. exact Hn.
Qed.

End CastFacts.

(** ** Members of the union *)

Section MemberFacts.
Import PointerAuthSchema.

Lemma get_set_same (m : member) (v : Z) (s : t) :
  well_formed m -> get m (set m v s) = Z.land v (Z.ones (width m)).
Proof.
  intros [Ho Hw]. unfold get, set; cbn [storage].
  apply load_store_same; assumption.
Qed.

Lemma get_set_other (m m' : member) (v : Z) (s : t) :
  well_formed m -> well_formed m' -> disjoint m m' ->
  get m' (set m v s) = get m' s.
Proof.
  intros [Ho Hw] [Ho' Hw'] Hd. unfold get, set; cbn [storage].
  apply load_store_other; assumption.
Qed.

Lemma get_range (m : member) (s : t) :
  well_formed m -> 0 <= get m s < 2 ^ width m.
Proof.
  intros [_ Hw]. apply load_range. exact Hw.
Qed.

End MemberFacts.

(** Side conditions on the declared members are closed arithmetic facts. *)
Ltac member_layout :=
  cbv [PointerAuthSchema.well_formed PointerAuthSchema.disjoint
       PointerAuthSchema.offset PointerAuthSchema.width
       PointerAuthSchema.Common_Kind
       PointerAuthSchema.Common_AddressDiscriminated
       PointerAuthSchema.Common_Discrimination
       PointerAuthSchema.Soft_Key PointerAuthSchema.ARM8_3_Key
       PointerAuthSchema.NumKindBits];
  lia.

(** Reading a member back after a run of member assignments. *)
Ltac read_back :=
  repeat first
    [ rewrite get_set_same by member_layout
    | rewrite get_set_other by member_layout ].

Section SchemaFacts.
Import PointerAuthSchema.

(** The two-bit [Kind] member holds one of four values; each decides
    [getKind]. *)
Lemma getKind_cases (s : t) :
  (get Common_Kind s = 0 /\ getKind s = Enumerator Kind.None) \/
  (get Common_Kind s = 1 /\ getKind s = Enumerator Kind.Soft) \/
  (get Common_Kind s = 2 /\ getKind s = Enumerator Kind.ARM8_3) \/
  (get Common_Kind s = 3 /\ getKind s = OutOfRange 3).
Proof.
  assert (Hr : 0 <= get Common_Kind s < 2 ^ 2)
    by (apply (get_range Common_Kind); member_layout).
  unfold getKind.
  assert (Hc : get Common_Kind s = 0 \/ get Common_Kind s = 1 \/
               get Common_Kind s = 2 \/ get Common_Kind s = 3)
    by (change (2 ^ 2) with 4 in Hr; lia).
  destruct Hc as [Hc | [Hc | [Hc | Hc]]]; rewrite Hc; auto 6.
Qed.

Lemma getKind_init (mem : t) : getKind (init mem) = Enumerator Kind.None.
Proof.
  unfold getKind, init. read_back. reflexivity.
Qed.

Lemma getKind_init_Soft mem key a d :
  getKind (init_Soft mem key a d) = Enumerator Kind.Soft.
Proof.
  unfold getKind, init_Soft. cbv zeta. read_back. reflexivity.
Qed.

Lemma getKind_init_ARM8_3 mem key a d :
  getKind (init_ARM8_3 mem key a d) = Enumerator Kind.ARM8_3.
Proof.
  unfold getKind, init_ARM8_3. cbv zeta. read_back. reflexivity.
Qed.

Lemma AddressDiscriminated_init_Soft mem key a d :
  get Common_AddressDiscriminated (init_Soft mem key a d) = Z.b2z a.
Proof.
  unfold init_Soft. cbv zeta. read_back. destruct a; reflexivity.
Qed.

Lemma AddressDiscriminated_init_ARM8_3 mem key a d :
  get Common_AddressDiscriminated (init_ARM8_3 mem key a d) = Z.b2z a.
Proof.
  unfold init_ARM8_3. cbv zeta. read_back. destruct a; reflexivity.
Qed.

Lemma Discrimination_init_Soft mem key a d :
  get Common_Discrimination (init_Soft mem key a d) = Discrimination.value d.
Proof.
  unfold init_Soft. cbv zeta. read_back. destruct d; reflexivity.
Qed.

Lemma Discrimination_init_ARM8_3 mem key a d :
  get Common_Discrimination (init_ARM8_3 mem key a d)
  = Discrimination.value d.
Proof.
  unfold init_ARM8_3. cbv zeta. read_back. destruct d; reflexivity.
Qed.

Lemma Key_init_Soft mem key a d :
  get Soft_Key (init_Soft mem key a d) = SoftKey.value key.
Proof.
  unfold init_Soft. cbv zeta. read_back. destruct key; reflexivity.
Qed.

Lemma Key_init_ARM8_3 mem key a d :
  get ARM8_3_Key (init_ARM8_3 mem key a d) = ARM8_3Key.value key.
Proof.
  unfold init_ARM8_3. cbv zeta. read_back. destruct key; reflexivity.
Qed.

End SchemaFacts.

(** ** The accessors by kind *)

Section AccessorFacts.
Import PointerAuthSchema.

Lemma isEnabled_Enumerator (s : t) (k : Kind.t) :
  getKind s = Enumerator k ->
  isEnabled s = match k with Kind.None => false | _ => true end.
Proof.
  intros Hk. unfold isEnabled. rewrite Hk. destruct k; reflexivity.
Qed.

Lemma isAddressDiscriminated_enabled (s : t) :
  isEnabled s = true ->
  isAddressDiscriminated s
  = Ok (negb (get Common_AddressDiscriminated s =? 0)).
Proof.
  unfold isEnabled, isAddressDiscriminated. intros ->. reflexivity.
Qed.

Lemma isAddressDiscriminated_disabled (s : t) :
  isEnabled s = false ->
  isAddressDiscriminated s = AssertionFailed "getKind() != Kind::None".
Proof.
  unfold isEnabled, isAddressDiscriminated. intros ->. reflexivity.
Qed.

Lemma getOtherDiscrimination_enabled (s : t) :
  isEnabled s = true ->
  getOtherDiscrimination s = Ok (enum_cast (get Common_Discrimination s)).
Proof.
  unfold isEnabled, getOtherDiscrimination. intros ->. reflexivity.
Qed.

Lemma getOtherDiscrimination_disabled (s : t) :
  isEnabled s = false ->
  getOtherDiscrimination s = AssertionFailed "getKind() != Kind::None".
Proof.
  unfold isEnabled, getOtherDiscrimination. intros ->. reflexivity.
Qed.

Lemma getSoftKey_Soft (s : t) :
  getKind s = Enumerator Kind.Soft ->
  getSoftKey s = Ok (enum_cast (get Soft_Key s)).
Proof.
  unfold getSoftKey. intros ->. reflexivity.
Qed.

Lemma getSoftKey_not_Soft (s : t) :
  getKind s <> Enumerator Kind.Soft ->
  getSoftKey s = AssertionFailed "getKind() == Kind::Soft".
Proof.
  intros Hk. unfold getSoftKey.
  destruct (getKind_cases s) as [[_ H] | [[_ H] | [[_ H] | [_ H]]]];
    rewrite H in *; try reflexivity.
  contradiction Hk. reflexivity.
Qed.

Lemma getARM8_3Key_ARM8_3 (s : t) :
  getKind s = Enumerator Kind.ARM8_3 ->
  getARM8_3Key s = Ok (enum_cast (get ARM8_3_Key s)).
Proof.
  unfold getARM8_3Key. intros ->. reflexivity.
Qed.

Lemma getARM8_3Key_not_ARM8_3 (s : t) :
  getKind s <> Enumerator Kind.ARM8_3 ->
  getARM8_3Key s = AssertionFailed "getKind() == Kind::ARM8_3".
Proof.
  intros Hk. unfold getARM8_3Key.
  destruct (getKind_cases s) as [[_ H] | [[_ H] | [[_ H] | [_ H]]]];
    rewrite H in *; try reflexivity.
  contradiction Hk. reflexivity.
Qed.

Lemma Soft_Key_unsigned (s : t) :
  enum_unsigned (enum_cast (E := SoftKey.t) (get Soft_Key s))
  = get Soft_Key s.
Proof.
  apply enum_unsigned_cast.
  pose proof (get_range Soft_Key s) as Hr.
  cbn [width Soft_Key] in Hr. assert (2 ^ 3 < 2 ^ 32) by reflexivity.
  specialize (Hr ltac:(member_layout)). lia.
Qed.

Lemma ARM8_3_Key_unsigned (s : t) :
  enum_unsigned (enum_cast (E := ARM8_3Key.t) (get ARM8_3_Key s))
  = get ARM8_3_Key s.
Proof.
  apply enum_unsigned_cast.
  pose proof (get_range ARM8_3_Key s) as Hr.
  cbn [width ARM8_3_Key] in Hr. assert (2 ^ 2 < 2 ^ 32) by reflexivity.
  specialize (Hr ltac:(member_layout)). lia.
Qed.

Lemma getKey_None (s : t) :
  getKind s = Enumerator Kind.None ->
  getKey s = Unreachable "calling getKey() on disabled schema".
Proof.
  unfold getKey. intros ->. reflexivity.
Qed.

Lemma getKey_Soft (s : t) :
  getKind s = Enumerator Kind.Soft -> getKey s = Ok (get Soft_Key s).
Proof.
  intros Hk. unfold getKey. rewrite Hk, (getSoftKey_Soft s Hk).
  cbn [bind]. rewrite Soft_Key_unsigned. reflexivity.
Qed.

Lemma getKey_ARM8_3 (s : t) :
  getKind s = Enumerator Kind.ARM8_3 -> getKey s = Ok (get ARM8_3_Key s).
Proof.
  intros Hk. unfold getKey. rewrite Hk, (getARM8_3Key_ARM8_3 s Hk).
  cbn [bind]. rewrite ARM8_3_Key_unsigned. reflexivity.
Qed.

Lemma getKey_OutOfRange (s : t) (raw : Z) :
  getKind s = OutOfRange raw -> getKey s = Unreachable "bad key kind".
Proof.
  unfold getKey. intros ->. reflexivity.
Qed.

End AccessorFacts.

(** ** The encoding on concrete schemas *)

Section Encoding.
Import PointerAuthSchema.

(** Kind 1, address discrimination 1, discrimination 1, key 4:
    1 + 4 + 8 + 128. *)
Example storage_init_Soft :
  storage (init_Soft {| storage := 0 |} SoftKey.CXXVTablePointers true
                     Discrimination.Type_) = 141.
Proof. reflexivity. Qed.

(** The hardware constructor assigns the two-bit [ARM8_3.Key] and leaves
    bit 7, the top bit of [Soft.Key], as it was: 2 + 96 + 128. *)
Example storage_init_ARM8_3 :
  storage (init_ARM8_3 {| storage := 255 |} ARM8_3Key.ASDB false
                       Discrimination.None) = 226.
Proof. reflexivity. Qed.

(** The default constructor clears the two kind bits only. *)
Example storage_init : storage (init {| storage := 255 |}) = 252.
Proof. reflexivity. Qed.

(** A software schema for v-table pointers with address and type
    discrimination. *)
Example software_vtable_schema :
  let s := init_Soft {| storage := 0 |} SoftKey.CXXVTablePointers true
                     Discrimination.Type_ in
  isEnabled s = true /\
  getKind s = Enumerator Kind.Soft /\
  getSoftKey s = Ok (Enumerator SoftKey.CXXVTablePointers) /\
  isAddressDiscriminated s = Ok true /\
  hasOtherDiscrimination s = Ok true.
Proof. cbv zeta. repeat split. Qed.

(** A storage unit whose kind bits hold 3 is enabled, has no key of either
    vocabulary, and takes [getKey] to its trailing [llvm_unreachable]; no
    constructor produces it. *)
Example kind_out_of_range :
  let s := {| storage := 3 |} in
  getKind s = OutOfRange 3 /\
  isEnabled s = true /\
  getKey s = Unreachable "bad key kind".
Proof. cbv zeta. repeat split. Qed.

End Encoding.

(** * The schema and options properties *)

Section Claims.
Import PointerAuthSchema.

(** C1 (round trip).  A schema constructed from a software key [k], a flag
    [a] and a discrimination [d], on storage of any previous content,
    gives back [k] from [getSoftKey], [a] from [isAddressDiscriminated],
    [d] from [getOtherDiscrimination], has kind [Soft] and is enabled; the
    same holds for the constructor from an ARM8.3 key, with
    [getARM8_3Key] and kind [ARM8_3]. *)
Theorem constructor_round_trip :
  (forall (mem : t) (k : SoftKey.t) (a : bool) (d : Discrimination.t),
      let s := init_Soft mem k a d in
      getSoftKey s = Ok (Enumerator k) /\
      isAddressDiscriminated s = Ok a /\
      getOtherDiscrimination s = Ok (Enumerator d) /\
      getKind s = Enumerator Kind.Soft /\
      isEnabled s = true) /\
  (forall (mem : t) (k : ARM8_3Key.t) (a : bool) (d : Discrimination.t),
      let s := init_ARM8_3 mem k a d in
      getARM8_3Key s = Ok (Enumerator k) /\
      isAddressDiscriminated s = Ok a /\
      getOtherDiscrimination s = Ok (Enumerator d) /\
      getKind s = Enumerator Kind.ARM8_3 /\
      isEnabled s = true).
Proof.
  split; intros mem k a d s; subst s.
  - pose proof (getKind_init_Soft mem k a d) as Hk.
    pose proof (isEnabled_Enumerator _ _ Hk) as He. cbn in He.
    repeat split; try assumption.
    + rewrite (getSoftKey_Soft _ Hk), Key_init_Soft.
      destruct k; reflexivity.
    + rewrite (isAddressDiscriminated_enabled _ He),
        AddressDiscriminated_init_Soft.
      destruct a; reflexivity.
    + rewrite (getOtherDiscrimination_enabled _ He),
        Discrimination_init_Soft.
      destruct d; reflexivity.
  - pose proof (getKind_init_ARM8_3 mem k a d) as Hk.
    pose proof (isEnabled_Enumerator _ _ Hk) as He. cbn in He.
    repeat split; try assumption.
    + rewrite (getARM8_3Key_ARM8_3 _ Hk), Key_init_ARM8_3.
      destruct k; reflexivity.
    + rewrite (isAddressDiscriminated_enabled _ He),
        AddressDiscriminated_init_ARM8_3.
      destruct a; reflexivity.
    + rewrite (getOtherDiscrimination_enabled _ He),
        Discrimination_init_ARM8_3.
      destruct d; reflexivity.
Qed.

(** C2 (queries on a disabled schema).  On a schema of kind [None] none of
    [isAddressDiscriminated], [getOtherDiscrimination], [getSoftKey],
    [getARM8_3Key] and [getKey] returns a value: the first four stop on
    their assertion and [getKey] on the [llvm_unreachable] of its
    [Kind::None] case. *)
Theorem disabled_queries_fault (s : t) :
  getKind s = Enumerator Kind.None ->
  isAddressDiscriminated s = AssertionFailed "getKind() != Kind::None" /\
  getOtherDiscrimination s = AssertionFailed "getKind() != Kind::None" /\
  getSoftKey s = AssertionFailed "getKind() == Kind::Soft" /\
  getARM8_3Key s = AssertionFailed "getKind() == Kind::ARM8_3" /\
  getKey s = Unreachable "calling getKey() on disabled schema".
Proof.
  intros Hk.
  pose proof (isEnabled_Enumerator _ _ Hk) as He. cbn in He.
  repeat split.
  - apply isAddressDiscriminated_disabled, He.
  - apply getOtherDiscrimination_disabled, He.
  - apply getSoftKey_not_Soft. rewrite Hk. discriminate.
  - apply getARM8_3Key_not_ARM8_3. rewrite Hk. discriminate.
  - apply getKey_None, Hk.
Qed.

(** The default constructor on storage whose bits were all set: the five
    queries of C2 stop. *)
Lemma disabled_queries_fault_witness :
  let s := init {| storage := 4294967295 |} in
  getKind s = Enumerator Kind.None /\
  faults (isAddressDiscriminated s) /\
  faults (getOtherDiscrimination s) /\
  faults (getSoftKey s) /\
  faults (getARM8_3Key s) /\
  faults (getKey s).
Proof.
  intros s.
  assert (Hk : getKind s = Enumerator Kind.None) by reflexivity.
  destruct (disabled_queries_fault s Hk) as (H1 & H2 & H3 & H4 & H5).
  rewrite H1, H2, H3, H4, H5. cbn. auto 6.
Defined.

(** C4 (disabled by default).  A default-constructed schema is not
    enabled, whatever its storage held before; a default-constructed
    [PointerAuthOptions] has its ten schema members not enabled and its
    four flags false. *)
Theorem default_is_disabled :
  (forall mem : t, isEnabled (init mem) = false) /\
  (forall mem : PointerAuthOptions.t,
      let o := PointerAuthOptions.init mem in
      isEnabled (PointerAuthOptions.FunctionPointers o) = false /\
      isEnabled (PointerAuthOptions.BlockInvocationFunctionPointers o)
      = false /\
      isEnabled (PointerAuthOptions.BlockHelperFunctionPointers o)
      = false /\
      isEnabled (PointerAuthOptions.BlockByrefHelperFunctionPointers o)
      = false /\
      isEnabled (PointerAuthOptions.ObjCMethodListFunctionPointers o)
      = false /\
      isEnabled (PointerAuthOptions.CXXVTablePointers o) = false /\
      isEnabled (PointerAuthOptions.CXXVTTVTablePointers o) = false /\
      isEnabled (PointerAuthOptions.CXXVirtualFunctionPointers o) = false /\
      isEnabled (PointerAuthOptions.CXXVirtualVariadicFunctionPointers o)
      = false /\
      isEnabled (PointerAuthOptions.CXXMemberFunctionPointers o) = false /\
      PointerAuthOptions.ThunkCXXVirtualMemberPointers o = false /\
      PointerAuthOptions.ReturnAddresses o = false /\
      PointerAuthOptions.IndirectGotos o = false /\
      PointerAuthOptions.AuthTraps o = false).
Proof.
  assert (Hinit : forall mem : t, isEnabled (init mem) = false).
  { intros mem.
    apply (isEnabled_Enumerator _ Kind.None), getKind_init. }
  split; [exact Hinit |].
  intros mem o. subst o. cbn [PointerAuthOptions.init
    PointerAuthOptions.FunctionPointers
    PointerAuthOptions.BlockInvocationFunctionPointers
    PointerAuthOptions.BlockHelperFunctionPointers
    PointerAuthOptions.BlockByrefHelperFunctionPointers
    PointerAuthOptions.ObjCMethodListFunctionPointers
    PointerAuthOptions.CXXVTablePointers
    PointerAuthOptions.CXXVTTVTablePointers
    PointerAuthOptions.CXXVirtualFunctionPointers
    PointerAuthOptions.CXXVirtualVariadicFunctionPointers
    PointerAuthOptions.CXXMemberFunctionPointers
    PointerAuthOptions.ThunkCXXVirtualMemberPointers
    PointerAuthOptions.ReturnAddresses PointerAuthOptions.IndirectGotos
    PointerAuthOptions.AuthTraps].
  rewrite !Hinit. repeat split.
Qed.

(** C5 (one key vocabulary per kind).  On a schema of kind [Soft],
    [getARM8_3Key] stops on its assertion; on a schema of kind [ARM8_3],
    [getSoftKey] stops on its assertion; and each of the two accessors
    returns a key exactly when the kind is its own. *)
Theorem key_accessor_needs_its_kind (s : t) :
  (getKind s = Enumerator Kind.Soft ->
   getARM8_3Key s = AssertionFailed "getKind() == Kind::ARM8_3") /\
  (getKind s = Enumerator Kind.ARM8_3 ->
   getSoftKey s = AssertionFailed "getKind() == Kind::Soft") /\
  ((exists k, getSoftKey s = Ok k) <-> getKind s = Enumerator Kind.Soft) /\
  ((exists k, getARM8_3Key s = Ok k)
   <-> getKind s = Enumerator Kind.ARM8_3).
Proof.
  assert (Hdec : forall k : Kind.t,
             getKind s = Enumerator k \/ getKind s <> Enumerator k).
  { intros k.
    destruct (getKind_cases s) as [[_ H] | [[_ H] | [[_ H] | [_ H]]]];
      rewrite H; destruct k; (left; reflexivity) || (right; discriminate). }
  repeat split.
  - intros Hk. apply getARM8_3Key_not_ARM8_3. rewrite Hk. discriminate.
  - intros Hk. apply getSoftKey_not_Soft. rewrite Hk. discriminate.
  - intros [k Hok]. destruct (Hdec Kind.Soft) as [Hk | Hk]; [exact Hk |].
    rewrite (getSoftKey_not_Soft _ Hk) in Hok. discriminate.
  - intros Hk. eexists. apply getSoftKey_Soft, Hk.
  - intros [k Hok]. destruct (Hdec Kind.ARM8_3) as [Hk | Hk]; [exact Hk |].
    rewrite (getARM8_3Key_not_ARM8_3 _ Hk) in Hok. discriminate.
  - intros Hk. eexists. apply getARM8_3Key_ARM8_3, Hk.
Qed.

(** A software schema refuses [getARM8_3Key] and answers [getSoftKey]; a
    hardware schema does the reverse. *)
Lemma key_accessor_needs_its_kind_witness :
  let soft := init_Soft {| storage := 0 |} SoftKey.CXXVTablePointers true
                        Discrimination.Type_ in
  let hard := init_ARM8_3 {| storage := 0 |} ARM8_3Key.ASDA false
                          Discrimination.Decl in
  faults (getARM8_3Key soft) /\ faults (getSoftKey hard) /\
  getKind soft = Enumerator Kind.Soft /\
  getKind hard = Enumerator Kind.ARM8_3.
Proof.
  intros soft hard.
  destruct (key_accessor_needs_its_kind soft) as (H1 & _ & H3 & _).
  destruct (key_accessor_needs_its_kind hard) as (_ & H2 & _ & H4).
  assert (Hs : getKind soft = Enumerator Kind.Soft) by reflexivity.
  assert (Hh : getKind hard = Enumerator Kind.ARM8_3) by reflexivity.
  rewrite (H1 Hs), (H2 Hh). cbn [faults].
  split; [exact I |]. split; [exact I |]. split.
  - apply H3. eexists. reflexivity.
  - apply H4. eexists. reflexivity.
Defined.

(** C6 (the generic key).  On a schema of kind [Soft], [getKey] returns
    the number of the key [getSoftKey] returns, and on a schema of kind
    [ARM8_3] the number of the key [getARM8_3Key] returns; on a constructed
    schema that is the declared value of the key it was constructed from.
    The schema constructed from [ASIA], [false] and [Discrimination::None]
    has no other discrimination and key 0. *)
Theorem getKey_is_the_active_key :
  (forall s : t,
      getKind s = Enumerator Kind.Soft ->
      exists k, getSoftKey s = Ok k /\ getKey s = Ok (enum_unsigned k)) /\
  (forall s : t,
      getKind s = Enumerator Kind.ARM8_3 ->
      exists k, getARM8_3Key s = Ok k /\ getKey s = Ok (enum_unsigned k)) /\
  (forall mem k a d,
      getKey (init_Soft mem k a d) = Ok (SoftKey.value k)) /\
  (forall mem k a d,
      getKey (init_ARM8_3 mem k a d) = Ok (ARM8_3Key.value k)) /\
  (forall mem,
      let s := init_ARM8_3 mem ARM8_3Key.ASIA false Discrimination.None in
      hasOtherDiscrimination s = Ok false /\ getKey s = Ok 0).
Proof.
  assert (Hhard : forall mem k a d,
             getKey (init_ARM8_3 mem k a d) = Ok (ARM8_3Key.value k)).
  { intros mem k a d.
    rewrite (getKey_ARM8_3 _ (getKind_init_ARM8_3 mem k a d)),
      Key_init_ARM8_3.
    reflexivity. }
  split; [| split; [| split; [| split]]].
  - intros s Hk. exists (enum_cast (get Soft_Key s)). split.
    + apply getSoftKey_Soft, Hk.
    + rewrite Soft_Key_unsigned. apply getKey_Soft, Hk.
  - intros s Hk. exists (enum_cast (get ARM8_3_Key s)). split.
    + apply getARM8_3Key_ARM8_3, Hk.
    + rewrite ARM8_3_Key_unsigned. apply getKey_ARM8_3, Hk.
  - intros mem k a d.
    rewrite (getKey_Soft _ (getKind_init_Soft mem k a d)), Key_init_Soft.
    reflexivity.
  - exact Hhard.
  - intros mem s. subst s. split; [| apply Hhard].
    pose proof (getKind_init_ARM8_3 mem ARM8_3Key.ASIA false
                  Discrimination.None) as Hk.
    pose proof (isEnabled_Enumerator _ _ Hk) as He. cbn in He.
    unfold hasOtherDiscrimination.
    rewrite (getOtherDiscrimination_enabled _ He),
      Discrimination_init_ARM8_3.
    reflexivity.
Qed.

(** A schema of each enabled kind: [getKey] is the number of its key. *)
Lemma getKey_is_the_active_key_witness :
  getKey (init_Soft {| storage := 0 |} SoftKey.CXXMemberFunctionPointers
                    true Discrimination.Decl) = Ok 6 /\
  getKey (init_ARM8_3 {| storage := 255 |} ARM8_3Key.ASDB false
                      Discrimination.None) = Ok 3.
Proof.
  destruct getKey_is_the_active_key as (Hsoft & Hhard & _).
  split.
  - destruct (Hsoft (init_Soft {| storage := 0 |}
                       SoftKey.CXXMemberFunctionPointers true
                       Discrimination.Decl) eq_refl)
      as (k & Hk & Hkey).
    rewrite Hkey. injection Hk as <-. reflexivity.
  - destruct (Hhard (init_ARM8_3 {| storage := 255 |} ARM8_3Key.ASDB false
                       Discrimination.None) eq_refl)
      as (k & Hk & Hkey).
    rewrite Hkey. injection Hk as <-. reflexivity.
Defined.

(** C7 (assignment to one member).  Assigning a schema [v] to the
    [CXXVTablePointers] member of default-constructed options stores [v]
    there, leaves the other nine schema members not enabled and the four
    flags false. *)
Theorem assign_CXXVTablePointers_frame
    (mem : PointerAuthOptions.t) (v : t) :
  let o := PointerAuthOptions.assign_CXXVTablePointers v
             (PointerAuthOptions.init mem) in
  PointerAuthOptions.CXXVTablePointers o = v /\
  isEnabled (PointerAuthOptions.FunctionPointers o) = false /\
  isEnabled (PointerAuthOptions.BlockInvocationFunctionPointers o)
  = false /\
  isEnabled (PointerAuthOptions.BlockHelperFunctionPointers o) = false /\
  isEnabled (PointerAuthOptions.BlockByrefHelperFunctionPointers o)
  = false /\
  isEnabled (PointerAuthOptions.ObjCMethodListFunctionPointers o)
  = false /\
  isEnabled (PointerAuthOptions.CXXVTTVTablePointers o) = false /\
  isEnabled (PointerAuthOptions.CXXVirtualFunctionPointers o) = false /\
  isEnabled (PointerAuthOptions.CXXVirtualVariadicFunctionPointers o)
  = false /\
  isEnabled (PointerAuthOptions.CXXMemberFunctionPointers o) = false /\
  PointerAuthOptions.ThunkCXXVirtualMemberPointers o = false /\
  PointerAuthOptions.ReturnAddresses o = false /\
  PointerAuthOptions.IndirectGotos o = false /\
  PointerAuthOptions.AuthTraps o = false.
Proof.
  intros o. subst o.
  assert (Hinit : forall m : t, isEnabled (init m) = false).
  { intros m. apply (isEnabled_Enumerator _ Kind.None), getKind_init. }
  cbn [PointerAuthOptions.assign_CXXVTablePointers PointerAuthOptions.init
    PointerAuthOptions.FunctionPointers
    PointerAuthOptions.BlockInvocationFunctionPointers
    PointerAuthOptions.BlockHelperFunctionPointers
    PointerAuthOptions.BlockByrefHelperFunctionPointers
    PointerAuthOptions.ObjCMethodListFunctionPointers
    PointerAuthOptions.CXXVTablePointers
    PointerAuthOptions.CXXVTTVTablePointers
    PointerAuthOptions.CXXVirtualFunctionPointers
    PointerAuthOptions.CXXVirtualVariadicFunctionPointers
    PointerAuthOptions.CXXMemberFunctionPointers
    PointerAuthOptions.ThunkCXXVirtualMemberPointers
    PointerAuthOptions.ReturnAddresses PointerAuthOptions.IndirectGotos
    PointerAuthOptions.AuthTraps].
  rewrite !Hinit. repeat split.
Qed.

(** C8 (the key vocabularies).  [SoftKey] has exactly seven enumerators,
    numbered 0 to 6 from [FunctionPointers] to
    [CXXMemberFunctionPointers]; [ARM8_3Key] has exactly four, [ASIA] = 0,
    [ASIB] = 1, [ASDA] = 2 and [ASDB] = 3. *)
Theorem key_vocabularies :
  ((forall k : SoftKey.t, In k SoftKey.all) /\
   NoDup SoftKey.all /\
   List.length SoftKey.all = 7%nat /\
   map SoftKey.value SoftKey.all = [0; 1; 2; 3; 4; 5; 6] /\
   SoftKey.value SoftKey.FunctionPointers = 0 /\
   SoftKey.value SoftKey.CXXMemberFunctionPointers = 6) /\
  ((forall k : ARM8_3Key.t, In k ARM8_3Key.all) /\
   NoDup ARM8_3Key.all /\
   List.length ARM8_3Key.all = 4%nat /\
   ARM8_3Key.value ARM8_3Key.ASIA = 0 /\
   ARM8_3Key.value ARM8_3Key.ASIB = 1 /\
   ARM8_3Key.value ARM8_3Key.ASDA = 2 /\
   ARM8_3Key.value ARM8_3Key.ASDB = 3).
Proof.
  split.
  - split; [intros k; destruct k; cbn; tauto |].
    split; [| repeat split].
    repeat constructor; cbn; intuition discriminate.
  - split; [intros k; destruct k; cbn; tauto |].
    split; [| repeat split].
    repeat constructor; cbn; intuition discriminate.
Qed.

(** C9 (conversion to bool).  The conversion of a schema to [bool] is
    [isEnabled], which is the test that the kind differs from
    [Kind::None]; both are total functions of the schema, and on a schema
    of kind [None] the conversion yields [false]. *)
Theorem operator_bool_is_isEnabled (s : t) :
  operator_bool s = isEnabled s /\
  isEnabled s = negb (enum_eqb (getKind s) (Enumerator Kind.None)) /\
  (isEnabled s = false <-> getKind s = Enumerator Kind.None).
Proof.
  split; [reflexivity |]. split; [reflexivity |].
  split.
  - intros He.
    destruct (getKind_cases s) as [[_ H] | [[_ H] | [[_ H] | [_ H]]]];
      [exact H | | |]; unfold isEnabled in He; rewrite H in He;
      discriminate He.
  - intros Hk. apply (isEnabled_Enumerator _ _ Hk).
Qed.

(** The conversion yields [false] on a default-constructed schema and
    [true] on a constructed one. *)
Lemma operator_bool_is_isEnabled_witness :
  operator_bool (init {| storage := 4294967295 |}) = false /\
  operator_bool (init_Soft {| storage := 0 |} SoftKey.FunctionPointers
                           false Discrimination.None) = true.
Proof.
  split.
  - destruct (operator_bool_is_isEnabled
                (init {| storage := 4294967295 |})) as (Hb & _ & Hiff).
    rewrite Hb. apply Hiff. reflexivity.
  - destruct (operator_bool_is_isEnabled
                (init_Soft {| storage := 0 |} SoftKey.FunctionPointers
                           false Discrimination.None)) as (Hb & _ & _).
    rewrite Hb. reflexivity.
Defined.

(** C10 (the trailing unreachable of getKey).  On a schema whose kind is
    one of the three enumerators, [getKey] does not reach
    [llvm_unreachable("bad key kind")]: for [Kind::None] it stops in that
    case of the switch, for [Kind::Soft] and [Kind::ARM8_3] it returns the
    key. *)
Theorem getKey_bad_key_kind_not_reached (s : t) (k : Kind.t) :
  getKind s = Enumerator k ->
  getKey s <> Unreachable "bad key kind" /\
  match k with
  | Kind.None => getKey s = Unreachable "calling getKey() on disabled schema"
  | Kind.Soft => getKey s = Ok (get Soft_Key s)
  | Kind.ARM8_3 => getKey s = Ok (get ARM8_3_Key s)
  end.
Proof.
  intros Hk. destruct k.
  - rewrite (getKey_None _ Hk). split; [discriminate | reflexivity].
  - rewrite (getKey_Soft _ Hk). split; [discriminate | reflexivity].
  - rewrite (getKey_ARM8_3 _ Hk). split; [discriminate | reflexivity].
Qed.

(** A hardware schema: [getKey] returns through the [ARM8_3] case. *)
Lemma getKey_bad_key_kind_not_reached_witness :
  let s := init_ARM8_3 {| storage := 0 |} ARM8_3Key.ASIB true
                       Discrimination.Type_ in
  getKind s = Enumerator Kind.ARM8_3 /\
  getKey s <> Unreachable "bad key kind" /\
  getKey s = Ok (get ARM8_3_Key s).
Proof.
  intros s. split; [reflexivity |].
  exact (getKey_bad_key_kind_not_reached s Kind.ARM8_3 eq_refl).
Defined.

End Claims.

(** ** Equality of schemas *)

Section Equality.
Import PointerAuthSchema.

(** The member functions depend on the kind and on the members that are
    valid for it, and on nothing else of the storage unit. *)
Lemma valid_members_decide_observation (s1 s2 : t) :
  getKind s1 = getKind s2 ->
  (isEnabled s1 = true ->
   get Common_AddressDiscriminated s1 = get Common_AddressDiscriminated s2 /\
   get Common_Discrimination s1 = get Common_Discrimination s2) ->
  (getKind s1 = Enumerator Kind.Soft -> get Soft_Key s1 = get Soft_Key s2) ->
  (getKind s1 = Enumerator Kind.ARM8_3 ->
   get ARM8_3_Key s1 = get ARM8_3_Key s2) ->
  Observation.equal s1 s2.
Proof.
  intros Hkind Hcommon Hsoft Harm.
  unfold Observation.equal, Observation.observe, operator_bool,
    hasOtherDiscrimination, getOtherDiscrimination, isAddressDiscriminated,
    getKey, getSoftKey, getARM8_3Key.
  unfold isEnabled in *. rewrite <- Hkind.
  destruct (getKind_cases s1) as [[_ H] | [[_ H] | [[_ H] | [_ H]]]];
    rewrite H in *; cbn in *.
  - reflexivity.
  - destruct (Hcommon eq_refl) as [<- <-]. rewrite <- (Hsoft eq_refl).
    reflexivity.
  - destruct (Hcommon eq_refl) as [<- <-]. rewrite <- (Harm eq_refl).
    reflexivity.
  - destruct (Hcommon eq_refl) as [<- <-]. reflexivity.
Qed.





Lemma equal_accessors (s1 s2 : t) :
  Observation.equal s1 s2 ->
  getKind s1 = getKind s2 /\ isEnabled s1 = isEnabled s2 /\
  getKey s1 = getKey s2 /\
  isAddressDiscriminated s1 = isAddressDiscriminated s2 /\
  getOtherDiscrimination s1 = getOtherDiscrimination s2.
Proof.
  unfold Observation.equal. intros Heq.
  pose proof (f_equal Observation.kind Heq) as Hkind.
  pose proof (f_equal Observation.enabled Heq) as Hen.
  pose proof (f_equal Observation.key Heq) as Hkey.
  pose proof (f_equal Observation.addressDiscriminated Heq) as Had.
  pose proof (f_equal Observation.otherDiscrimination Heq) as Hd.
  cbn in Hkind, Hen, Hkey, Had, Hd. auto.
Qed.





End Equality.

(** * Further properties of the schema *)

(** ** Bit-fields: splitting a slice, and the bits above a member *)

Section BitFieldSlices.
Import BitField.

Lemma load_split (off w1 w2 w : Z) :
  0 <= off -> 0 <= w1 -> 0 <= w2 ->
  load off (w1 + w2) w = load off w1 w + 2 ^ w1 * load (off + w1) w2 w.
Proof.
  intros Ho H1 H2. unfold load.
  rewrite !Z.land_ones by lia.
  rewrite <- (Z.shiftr_shiftr w off w1) by lia.
  rewrite (Z.shiftr_div_pow2 (Z.shiftr w off) w1) by lia.
  rewrite Z.pow_add_r by lia.
  apply Z.rem_mul_r.
  - apply Z.pow_nonzero; lia.
  - apply Z.pow_pos_nonneg; lia.
Qed.

Lemma load_whole (width w : Z) :
  0 <= width -> load 0 width w = w mod 2 ^ width.
Proof.
  intros Hw. unfold load. rewrite Z.shiftr_0_r. apply Z.land_ones, Hw.
Qed.

Lemma store_above (off width v w n : Z) :
  0 <= off -> 0 <= width -> off + width <= n ->
  Z.shiftr (store off width v w) n = Z.shiftr w n.
Proof.
  intros Ho Hw Hn. apply Z.bits_inj'. intros m Hm.
  rewrite !Z.shiftr_spec, store_testbit by lia.
  destruct (Z.ltb_spec (m + n) (off + width)); [lia |].
  rewrite andb_false_r. reflexivity.
Qed.

Lemma split_at (w n : Z) :
  0 <= n -> w = Z.shiftr w n * 2 ^ n + w mod 2 ^ n.
Proof.
  intros Hn. rewrite Z.shiftr_div_pow2 by assumption.
  rewrite Z.mul_comm. apply Z.div_mod.
  apply Z.pow_nonzero; lia.
Qed.

End BitFieldSlices.

(** ** The accessors on constructed schemas *)

Section ConstructedFacts.
Import PointerAuthSchema.

Lemma SoftKey_value_inj (k1 k2 : SoftKey.t) :
  SoftKey.value k1 = SoftKey.value k2 -> k1 = k2.
Proof. destruct k1, k2; cbn; intros H; (reflexivity || discriminate H). Qed.

Lemma ARM8_3Key_value_inj (k1 k2 : ARM8_3Key.t) :
  ARM8_3Key.value k1 = ARM8_3Key.value k2 -> k1 = k2.
Proof. destruct k1, k2; cbn; intros H; (reflexivity || discriminate H). Qed.

Lemma Discrimination_value_inj (d1 d2 : Discrimination.t) :
  Discrimination.value d1 = Discrimination.value d2 -> d1 = d2.
Proof. destruct d1, d2; cbn; intros H; (reflexivity || discriminate H). Qed.

Lemma isEnabled_init (mem : t) : isEnabled (init mem) = false.
Proof. apply (isEnabled_Enumerator _ Kind.None), getKind_init. Qed.

Lemma isEnabled_init_Soft mem k a d : isEnabled (init_Soft mem k a d) = true.
Proof. apply (isEnabled_Enumerator _ Kind.Soft), getKind_init_Soft. Qed.

Lemma isEnabled_init_ARM8_3 mem k a d :
  isEnabled (init_ARM8_3 mem k a d) = true.
Proof. apply (isEnabled_Enumerator _ Kind.ARM8_3), getKind_init_ARM8_3. Qed.

Lemma isAddressDiscriminated_init_Soft mem k a d :
  isAddressDiscriminated (init_Soft mem k a d) = Ok a.
Proof.
  rewrite (isAddressDiscriminated_enabled _ (isEnabled_init_Soft mem k a d)),
    AddressDiscriminated_init_Soft.
  destruct a; reflexivity.
Qed.

Lemma isAddressDiscriminated_init_ARM8_3 mem k a d :
  isAddressDiscriminated (init_ARM8_3 mem k a d) = Ok a.
Proof.
  rewrite (isAddressDiscriminated_enabled _
             (isEnabled_init_ARM8_3 mem k a d)),
    AddressDiscriminated_init_ARM8_3.
  destruct a; reflexivity.
Qed.

Lemma getOtherDiscrimination_init_Soft mem k a d :
  getOtherDiscrimination (init_Soft mem k a d) = Ok (Enumerator d).
Proof.
  rewrite (getOtherDiscrimination_enabled _ (isEnabled_init_Soft mem k a d)),
    Discrimination_init_Soft.
  destruct d; reflexivity.
Qed.

Lemma getOtherDiscrimination_init_ARM8_3 mem k a d :
  getOtherDiscrimination (init_ARM8_3 mem k a d) = Ok (Enumerator d).
Proof.
  rewrite (getOtherDiscrimination_enabled _
             (isEnabled_init_ARM8_3 mem k a d)),
    Discrimination_init_ARM8_3.
  destruct d; reflexivity.
Qed.

Lemma getKey_init_Soft mem k a d :
  getKey (init_Soft mem k a d) = Ok (SoftKey.value k).
Proof.
  rewrite (getKey_Soft _ (getKind_init_Soft mem k a d)), Key_init_Soft.
  reflexivity.
Qed.

Lemma getKey_init_ARM8_3 mem k a d :
  getKey (init_ARM8_3 mem k a d) = Ok (ARM8_3Key.value k).
Proof.
  rewrite (getKey_ARM8_3 _ (getKind_init_ARM8_3 mem k a d)), Key_init_ARM8_3.
  reflexivity.
Qed.

(** On an enabled schema the test of [hasOtherDiscrimination] is a test of
    the [Discrimination] member against zero. *)
Lemma hasOtherDiscrimination_enabled (s : t) :
  isEnabled s = true ->
  hasOtherDiscrimination s = Ok (negb (get Common_Discrimination s =? 0)).
Proof.
  intros He. unfold hasOtherDiscrimination.
  rewrite (getOtherDiscrimination_enabled _ He). cbn [bind].
  unfold enum_neqb, enum_eqb. rewrite enum_underlying_cast. reflexivity.
Qed.

Lemma hasOtherDiscrimination_disabled (s : t) :
  isEnabled s = false ->
  hasOtherDiscrimination s = AssertionFailed "getKind() != Kind::None".
Proof.
  intros He. unfold hasOtherDiscrimination.
  rewrite (getOtherDiscrimination_disabled _ He). reflexivity.
Qed.

Lemma isEnabled_cases (s : t) : isEnabled s = true \/ isEnabled s = false.
Proof. destruct (isEnabled s); auto. Qed.

End ConstructedFacts.

Section Extras.
Import PointerAuthSchema.

(** X1 (hasOtherDiscrimination).  On an enabled schema
    [hasOtherDiscrimination] returns whether the [Discrimination] member is
    non-zero; on a schema constructed with discrimination [d] that is
    whether [d] is not [Discrimination::None]; on a schema that is not
    enabled it stops on the assertion of [getOtherDiscrimination], which it
    calls. *)
Theorem hasOtherDiscrimination_behaviour :
  (forall s : t,
      isEnabled s = true ->
      hasOtherDiscrimination s
      = Ok (negb (get Common_Discrimination s =? 0))) /\
  (forall s : t,
      isEnabled s = false ->
      hasOtherDiscrimination s
      = AssertionFailed "getKind() != Kind::None") /\
  (forall mem k a d,
      hasOtherDiscrimination (init_Soft mem k a d)
      = Ok match d with Discrimination.None => false | _ => true end) /\
  (forall mem k a d,
      hasOtherDiscrimination (init_ARM8_3 mem k a d)
      = Ok match d with Discrimination.None => false | _ => true end).
Proof.
  split; [exact hasOtherDiscrimination_enabled |].
  split; [exact hasOtherDiscrimination_disabled |].
  split; intros mem k a d.
  - rewrite (hasOtherDiscrimination_enabled _
               (isEnabled_init_Soft mem k a d)), Discrimination_init_Soft.
    destruct d; reflexivity.
  - rewrite (hasOtherDiscrimination_enabled _
               (isEnabled_init_ARM8_3 mem k a d)),
      Discrimination_init_ARM8_3.
    destruct d; reflexivity.
Qed.

(** A schema with declaration discrimination has other discrimination; a
    default-constructed schema stops the query. *)
Lemma hasOtherDiscrimination_behaviour_witness :
  hasOtherDiscrimination
    (init_ARM8_3 {| storage := 0 |} ARM8_3Key.ASDA true Discrimination.Decl)
  = Ok true /\
  hasOtherDiscrimination (init {| storage := 255 |})
  = AssertionFailed "getKind() != Kind::None".
Proof.
  destruct hasOtherDiscrimination_behaviour as (Hen & Hdis & _).
  split.
  - rewrite Hen; reflexivity.
  - rewrite Hdis; reflexivity.
Defined.

(** X2 (the header accessors).  [isAddressDiscriminated],
    [getOtherDiscrimination] and [hasOtherDiscrimination] return a value
    exactly when the schema is enabled, whatever its kind. *)
Theorem header_accessors_return_iff_enabled (s : t) :
  ((exists b, isAddressDiscriminated s = Ok b) <-> isEnabled s = true) /\
  ((exists d, getOtherDiscrimination s = Ok d) <-> isEnabled s = true) /\
  ((exists b, hasOtherDiscrimination s = Ok b) <-> isEnabled s = true).
Proof.
  destruct (isEnabled_cases s) as [He | He].
  - rewrite (isAddressDiscriminated_enabled _ He),
      (getOtherDiscrimination_enabled _ He),
      (hasOtherDiscrimination_enabled _ He).
    repeat split; intros _; try exact He; eexists; reflexivity.
  - rewrite (isAddressDiscriminated_disabled _ He),
      (getOtherDiscrimination_disabled _ He),
      (hasOtherDiscrimination_disabled _ He), He.
    repeat split; intros H; try discriminate H;
      destruct H as [x H]; discriminate H.
Qed.

(** The three accessors return on a hardware schema. *)
Lemma header_accessors_return_iff_enabled_witness :
  let s := init_ARM8_3 {| storage := 0 |} ARM8_3Key.ASIA true
                       Discrimination.Type_ in
  isEnabled s = true /\
  (exists b, isAddressDiscriminated s = Ok b) /\
  (exists d, getOtherDiscrimination s = Ok d) /\
  (exists b, hasOtherDiscrimination s = Ok b).
Proof.
  intros s. destruct (header_accessors_return_iff_enabled s) as (H1 & H2 & H3).
  assert (He : isEnabled s = true) by reflexivity.
  split; [exact He |].
  split; [apply H1, He |]. split; [apply H2, He | apply H3, He].
Defined.

(** X3 (the key accessors).  [getSoftKey] and [getARM8_3Key] never both
    return on one schema; [getKey] returns exactly when one of them does,
    and then the schema is enabled. *)
Theorem getKey_returns_iff_a_key_accessor_returns (s : t) :
  ~ ((exists k, getSoftKey s = Ok k) /\ (exists k, getARM8_3Key s = Ok k)) /\
  ((exists n, getKey s = Ok n) <->
   (exists k, getSoftKey s = Ok k) \/ (exists k, getARM8_3Key s = Ok k)) /\
  ((exists n, getKey s = Ok n) -> isEnabled s = true).
Proof.
  destruct (getKind_cases s) as [[_ H] | [[_ H] | [[_ H] | [_ H]]]].
  - rewrite (getKey_None _ H), getSoftKey_not_Soft, getARM8_3Key_not_ARM8_3
      by (rewrite H; discriminate).
    repeat split.
    + intros [[k Hk] _]. discriminate Hk.
    + intros [n Hn]. discriminate Hn.
    + intros [[k Hk] | [k Hk]]; discriminate Hk.
    + intros [n Hn]. discriminate Hn.
  - rewrite (getKey_Soft _ H), (getSoftKey_Soft _ H), getARM8_3Key_not_ARM8_3
      by (rewrite H; discriminate).
    repeat split.
    + intros [_ [k Hk]]. discriminate Hk.
    + intros _. left. eexists. reflexivity.
    + intros _. eexists. reflexivity.
    + intros _. apply (isEnabled_Enumerator _ _ H).
  - rewrite (getKey_ARM8_3 _ H), (getARM8_3Key_ARM8_3 _ H), getSoftKey_not_Soft
      by (rewrite H; discriminate).
    repeat split.
    + intros [[k Hk] _]. discriminate Hk.
    + intros _. right. eexists. reflexivity.
    + intros _. eexists. reflexivity.
    + intros _. apply (isEnabled_Enumerator _ _ H).
  - rewrite (getKey_OutOfRange _ _ H), getSoftKey_not_Soft,
      getARM8_3Key_not_ARM8_3 by (rewrite H; discriminate).
    repeat split.
    + intros [[k Hk] _]. discriminate Hk.
    + intros [n Hn]. discriminate Hn.
    + intros [[k Hk] | [k Hk]]; discriminate Hk.
    + intros [n Hn]. discriminate Hn.
Qed.

(** On a software schema [getKey] returns, by way of [getSoftKey]. *)
Lemma getKey_returns_iff_a_key_accessor_returns_witness :
  let s := init_Soft {| storage := 0 |} SoftKey.BlockHelperFunctionPointers
                     false Discrimination.None in
  (exists k, getSoftKey s = Ok k) /\
  (exists n, getKey s = Ok n) /\
  isEnabled s = true.
Proof.
  intros s.
  destruct (getKey_returns_iff_a_key_accessor_returns s) as (_ & Hiff & Hen).
  assert (Hsoft : exists k, getSoftKey s = Ok k) by (eexists; reflexivity).
  split; [exact Hsoft |].
  assert (Hkey : exists n, getKey s = Ok n) by (apply Hiff; left; exact Hsoft).
  split; [exact Hkey | exact (Hen Hkey)].
Defined.

(** X4 (range of getKey).  Whatever the storage holds, a key returned by
    [getKey] lies between 0 and 7, and between 0 and 3 on a schema of kind
    [ARM8_3]; on a schema constructed from a software key it is at most
    6. *)
Theorem getKey_range :
  (forall (s : t) (n : Z),
      getKey s = Ok n ->
      0 <= n <= 7 /\ (getKind s = Enumerator Kind.ARM8_3 -> n <= 3)) /\
  (forall mem k a d n, getKey (init_Soft mem k a d) = Ok n -> 0 <= n <= 6).
Proof.
  split.
  - intros s n Hn.
    pose proof (get_range Soft_Key s ltac:(member_layout)) as Hs.
    pose proof (get_range ARM8_3_Key s ltac:(member_layout)) as Hh.
    cbn [width Soft_Key ARM8_3_Key] in Hs, Hh.
    change (2 ^ 3) with 8 in Hs. change (2 ^ 2) with 4 in Hh.
    destruct (getKind_cases s) as [[_ H] | [[_ H] | [[_ H] | [_ H]]]].
    + rewrite (getKey_None _ H) in Hn. discriminate Hn.
    + rewrite (getKey_Soft _ H) in Hn. injection Hn as <-.
      split; [lia |]. rewrite H. discriminate.
    + rewrite (getKey_ARM8_3 _ H) in Hn. injection Hn as <-.
      split; [lia |]. intros _. lia.
    + rewrite (getKey_OutOfRange _ _ H) in Hn. discriminate Hn.
  - intros mem k a d n. rewrite getKey_init_Soft.
    intros Hn. injection Hn as <-. destruct k; cbn; lia.
Qed.

(** A storage unit of kind [ARM8_3] with every other bit set: key 3. *)
Lemma getKey_range_witness :
  let s := {| storage := 254 |} in
  getKey s = Ok 3 /\ 0 <= 3 <= 7 /\ 3 <= 3.
Proof.
  intros s. destruct getKey_range as [Hany _].
  assert (Hn : getKey s = Ok 3) by reflexivity.
  destruct (Hany s 3 Hn) as [Hr Hh].
  split; [exact Hn |]. split; [exact Hr | apply Hh; reflexivity].
Defined.

(** X5 (getKey across the vocabularies).  [getKey] keeps the number of the
    key and drops its vocabulary: a software and a hardware schema whose
    keys have the same number have the same [getKey]; within one vocabulary
    two constructed schemas have the same [getKey] exactly when they were
    constructed from the same key. *)
Theorem getKey_drops_the_vocabulary :
  (forall m1 m2 (ks : SoftKey.t) (kh : ARM8_3Key.t) a1 a2 d1 d2,
      SoftKey.value ks = ARM8_3Key.value kh ->
      getKey (init_Soft m1 ks a1 d1) = getKey (init_ARM8_3 m2 kh a2 d2)) /\
  (forall m1 m2 (k1 k2 : SoftKey.t) a1 a2 d1 d2,
      getKey (init_Soft m1 k1 a1 d1) = getKey (init_Soft m2 k2 a2 d2)
      <-> k1 = k2) /\
  (forall m1 m2 (k1 k2 : ARM8_3Key.t) a1 a2 d1 d2,
      getKey (init_ARM8_3 m1 k1 a1 d1) = getKey (init_ARM8_3 m2 k2 a2 d2)
      <-> k1 = k2).
Proof.
  split; [| split].
  - intros m1 m2 ks kh a1 a2 d1 d2 Hv.
    rewrite getKey_init_Soft, getKey_init_ARM8_3, Hv. reflexivity.
  - intros m1 m2 k1 k2 a1 a2 d1 d2. rewrite !getKey_init_Soft. split.
    + intros Heq. injection Heq as Heq. apply SoftKey_value_inj, Heq.
    + intros ->. reflexivity.
  - intros m1 m2 k1 k2 a1 a2 d1 d2. rewrite !getKey_init_ARM8_3. split.
    + intros Heq. injection Heq as Heq. apply ARM8_3Key_value_inj, Heq.
    + intros ->. reflexivity.
Qed.

(** The software key for block helpers and the hardware key ASDA are both
    key 2. *)
Lemma getKey_drops_the_vocabulary_witness :
  getKey (init_Soft {| storage := 0 |} SoftKey.BlockHelperFunctionPointers
                    true Discrimination.Type_)
  = getKey (init_ARM8_3 {| storage := 255 |} ARM8_3Key.ASDA false
                        Discrimination.None).
Proof.
  destruct getKey_drops_the_vocabulary as (Hcross & _).
  apply Hcross. reflexivity.
Defined.

(** What the member functions tell of a constructed schema. *)
Lemma valid_members_init_Soft m1 m2 k a d :
  Observation.equal (init_Soft m1 k a d) (init_Soft m2 k a d).
Proof.
  apply valid_members_decide_observation.
  - rewrite !getKind_init_Soft. reflexivity.
  - intros _. rewrite !AddressDiscriminated_init_Soft,
      !Discrimination_init_Soft. split; reflexivity.
  - intros _. rewrite !Key_init_Soft. reflexivity.
  - rewrite getKind_init_Soft. discriminate.
Qed.

Lemma valid_members_init_ARM8_3 m1 m2 k a d :
  Observation.equal (init_ARM8_3 m1 k a d) (init_ARM8_3 m2 k a d).
Proof.
  apply valid_members_decide_observation.
  - rewrite !getKind_init_ARM8_3. reflexivity.
  - intros _. rewrite !AddressDiscriminated_init_ARM8_3,
      !Discrimination_init_ARM8_3. split; reflexivity.
  - rewrite getKind_init_ARM8_3. discriminate.
  - intros _. rewrite !Key_init_ARM8_3. reflexivity.
Qed.

Lemma valid_members_init m1 m2 : Observation.equal (init m1) (init m2).
Proof.
  apply valid_members_decide_observation.
  - rewrite !getKind_init. reflexivity.
  - rewrite isEnabled_init. discriminate.
  - rewrite getKind_init. discriminate.
  - rewrite getKind_init. discriminate.
Qed.

(** X6 (previous storage).  What the storage held before a constructor ran
    cannot be learnt from the schema: for each of the three constructors,
    the schemas constructed from the same arguments on two storages are
    told apart by no member function. *)
Theorem constructors_hide_previous_storage (m1 m2 : t) :
  Observation.equal (init m1) (init m2) /\
  (forall k a d, Observation.equal (init_Soft m1 k a d) (init_Soft m2 k a d)) /\
  (forall k a d,
      Observation.equal (init_ARM8_3 m1 k a d) (init_ARM8_3 m2 k a d)).
Proof.
  split; [apply valid_members_init |].
  split; intros k a d.
  - apply valid_members_init_Soft.
  - apply valid_members_init_ARM8_3.
Qed.

(** X7 (arguments of the constructors).  The member functions tell two
    constructed schemas apart exactly when they differ in constructor or in
    an argument: two software schemas are equal exactly when key, address
    discrimination and discrimination agree, likewise two hardware schemas;
    a software schema, a hardware schema and a default-constructed schema
    are never equal to one another. *)
Theorem constructed_schemas_are_told_apart (m1 m2 : t) :
  (forall (k1 k2 : SoftKey.t) a1 a2 d1 d2,
      Observation.equal (init_Soft m1 k1 a1 d1) (init_Soft m2 k2 a2 d2)
      <-> k1 = k2 /\ a1 = a2 /\ d1 = d2) /\
  (forall (k1 k2 : ARM8_3Key.t) a1 a2 d1 d2,
      Observation.equal (init_ARM8_3 m1 k1 a1 d1) (init_ARM8_3 m2 k2 a2 d2)
      <-> k1 = k2 /\ a1 = a2 /\ d1 = d2) /\
  (forall ks kh a1 a2 d1 d2,
      ~ Observation.equal (init_Soft m1 ks a1 d1)
                          (init_ARM8_3 m2 kh a2 d2)) /\
  (forall k a d, ~ Observation.equal (init m1) (init_Soft m2 k a d)) /\
  (forall k a d, ~ Observation.equal (init m1) (init_ARM8_3 m2 k a d)).
Proof.
  split; [| split; [| split; [| split]]].
  - intros k1 k2 a1 a2 d1 d2. split.
    + intros Heq.
      destruct (equal_accessors _ _ Heq) as (_ & _ & Hkey & Had & Hd).
      rewrite !getKey_init_Soft in Hkey.
      rewrite !isAddressDiscriminated_init_Soft in Had.
      rewrite !getOtherDiscrimination_init_Soft in Hd.
      injection Hkey as Hkey. injection Had as Had. injection Hd as Hd.
      split; [apply SoftKey_value_inj, Hkey | split; assumption].
    + intros (-> & -> & ->). apply valid_members_init_Soft.
  - intros k1 k2 a1 a2 d1 d2. split.
    + intros Heq.
      destruct (equal_accessors _ _ Heq) as (_ & _ & Hkey & Had & Hd).
      rewrite !getKey_init_ARM8_3 in Hkey.
      rewrite !isAddressDiscriminated_init_ARM8_3 in Had.
      rewrite !getOtherDiscrimination_init_ARM8_3 in Hd.
      injection Hkey as Hkey. injection Had as Had. injection Hd as Hd.
      split; [apply ARM8_3Key_value_inj, Hkey | split; assumption].
    + intros (-> & -> & ->). apply valid_members_init_ARM8_3.
  - intros ks kh a1 a2 d1 d2 Heq.
    destruct (equal_accessors _ _ Heq) as (Hkind & _).
    rewrite getKind_init_Soft, getKind_init_ARM8_3 in Hkind.
    discriminate Hkind.
  - intros k a d Heq.
    destruct (equal_accessors _ _ Heq) as (Hkind & _).
    rewrite getKind_init, getKind_init_Soft in Hkind. discriminate Hkind.
  - intros k a d Heq.
    destruct (equal_accessors _ _ Heq) as (Hkind & _).
    rewrite getKind_init, getKind_init_ARM8_3 in Hkind. discriminate Hkind.
Qed.

(** Two software schemas that differ in address discrimination only are
    told apart. *)
Lemma constructed_schemas_are_told_apart_witness :
  ~ Observation.equal
      (init_Soft {| storage := 0 |} SoftKey.FunctionPointers true
                 Discrimination.None)
      (init_Soft {| storage := 0 |} SoftKey.FunctionPointers false
                 Discrimination.None).
Proof.
  destruct (constructed_schemas_are_told_apart
              {| storage := 0 |} {| storage := 0 |}) as (Hsoft & _).
  intros Heq. apply Hsoft in Heq. destruct Heq as (_ & Ha & _).
  discriminate Ha.
Defined.

(** X8 (constructed schemas).  A schema that came out of a constructor has
    one of the three kinds; [getKey] does not reach its trailing
    [llvm_unreachable] on it and returns a key as soon as the schema is
    enabled; and every key or discrimination an accessor returns for it is a
    declared enumerator. *)
Theorem constructed_schema_is_well_formed (s : t) :
  constructed s ->
  (exists k, getKind s = Enumerator k) /\
  getKey s <> Unreachable "bad key kind" /\
  (isEnabled s = true -> exists n, getKey s = Ok n) /\
  (forall x, getSoftKey s = Ok x -> exists k, x = Enumerator k) /\
  (forall x, getARM8_3Key s = Ok x -> exists k, x = Enumerator k) /\
  (forall x, getOtherDiscrimination s = Ok x -> exists d, x = Enumerator d).
Proof.
  intros [mem | mem k a d | mem k a d].
  - pose proof (getKind_init mem) as Hk.
    rewrite (getKey_None _ Hk), isEnabled_init,
      (getOtherDiscrimination_disabled _ (isEnabled_init mem)),
      getSoftKey_not_Soft, getARM8_3Key_not_ARM8_3
      by (rewrite Hk; discriminate).
    split; [eexists; exact Hk |]. split; [discriminate |].
    repeat split; intros; discriminate.
  - pose proof (getKind_init_Soft mem k a d) as Hk.
    rewrite getKey_init_Soft, getOtherDiscrimination_init_Soft,
      (getSoftKey_Soft _ Hk), Key_init_Soft,
      getARM8_3Key_not_ARM8_3 by (rewrite Hk; discriminate).
    split; [eexists; exact Hk |]. split; [discriminate |].
    split; [intros _; eexists; reflexivity |].
    split; [| split].
    + intros x Hx. injection Hx as <-. exists k. destruct k; reflexivity.
    + intros x Hx. discriminate Hx.
    + intros x Hx. injection Hx as <-. exists d. reflexivity.
  - pose proof (getKind_init_ARM8_3 mem k a d) as Hk.
    rewrite getKey_init_ARM8_3, getOtherDiscrimination_init_ARM8_3,
      (getARM8_3Key_ARM8_3 _ Hk), Key_init_ARM8_3,
      getSoftKey_not_Soft by (rewrite Hk; discriminate).
    split; [eexists; exact Hk |]. split; [discriminate |].
    split; [intros _; eexists; reflexivity |].
    split; [| split].
    + intros x Hx. discriminate Hx.
    + intros x Hx. injection Hx as <-. exists k. destruct k; reflexivity.
    + intros x Hx. injection Hx as <-. exists d. reflexivity.
Qed.

(** A hardware schema constructed on storage whose bits were all set. *)
Lemma constructed_schema_is_well_formed_witness :
  let s := init_ARM8_3 {| storage := 4294967295 |} ARM8_3Key.ASIB false
                       Discrimination.None in
  constructed s /\
  (exists k, getKind s = Enumerator k) /\
  getKey s <> Unreachable "bad key kind" /\
  (exists n, getKey s = Ok n).
Proof.
  intros s.
  assert (Hc : constructed s) by apply constructed_ARM8_3.
  destruct (constructed_schema_is_well_formed s Hc) as (Hk & Hbad & Hkey & _).
  split; [exact Hc |]. split; [exact Hk |]. split; [exact Hbad |].
  apply Hkey. reflexivity.
Defined.

(** X9 (the fourth value of the kind bits).  [getKey] reaches its trailing
    [llvm_unreachable] exactly when the two kind bits hold 3.  Such a
    storage unit counts as enabled and answers the header accessors, but
    has no key: both [getSoftKey] and [getARM8_3Key] stop on their
    assertion. *)
Theorem getKey_bad_key_kind_iff_kind_bits_3 (s : t) :
  (getKey s = Unreachable "bad key kind" <-> get Common_Kind s = 3) /\
  (get Common_Kind s = 3 ->
   isEnabled s = true /\
   (exists b, isAddressDiscriminated s = Ok b) /\
   (exists d, getOtherDiscrimination s = Ok d) /\
   getSoftKey s = AssertionFailed "getKind() == Kind::Soft" /\
   getARM8_3Key s = AssertionFailed "getKind() == Kind::ARM8_3").
Proof.
  destruct (getKind_cases s) as [[Hb H] | [[Hb H] | [[Hb H] | [Hb H]]]];
    rewrite Hb.
  - rewrite (getKey_None _ H). repeat split; discriminate.
  - rewrite (getKey_Soft _ H). repeat split; discriminate.
  - rewrite (getKey_ARM8_3 _ H). repeat split; discriminate.
  - assert (He : isEnabled s = true)
      by (unfold isEnabled; rewrite H; reflexivity).
    rewrite (getKey_OutOfRange _ _ H),
      (isAddressDiscriminated_enabled _ He),
      (getOtherDiscrimination_enabled _ He),
      getSoftKey_not_Soft, getARM8_3Key_not_ARM8_3
      by (rewrite H; discriminate).
    repeat split; try (eexists; reflexivity). exact He.
Qed.

(** The storage unit 3. *)
Lemma getKey_bad_key_kind_iff_kind_bits_3_witness :
  let s := {| storage := 3 |} in
  get Common_Kind s = 3 /\
  getKey s = Unreachable "bad key kind" /\
  isEnabled s = true.
Proof.
  intros s.
  destruct (getKey_bad_key_kind_iff_kind_bits_3 s) as (Hiff & Hstate).
  assert (Hb : get Common_Kind s = 3) by reflexivity.
  split; [exact Hb |]. split; [apply Hiff, Hb |].
  apply (proj1 (Hstate Hb)).
Defined.

(** X10 (enumerators and member widths).  Every enumerator fits the
    bit-field that stores it: the kinds and the discriminations fit two
    bits, the software keys three and the hardware keys two, so that no
    constructor truncates an argument; the software keys do not all fit the
    two bits of [ARM8_3.Key]. *)
Theorem enumerators_fit_their_members :
  (forall k : Kind.t,
      0 <= enum_unsigned (Enumerator k) < 2 ^ width Common_Kind) /\
  (forall d : Discrimination.t,
      0 <= enum_unsigned (Enumerator d) < 2 ^ width Common_Discrimination) /\
  (forall k : SoftKey.t,
      0 <= enum_unsigned (Enumerator k) < 2 ^ width Soft_Key) /\
  (forall k : ARM8_3Key.t,
      0 <= enum_unsigned (Enumerator k) < 2 ^ width ARM8_3_Key) /\
  (forall a : bool, 0 <= Z.b2z a < 2 ^ width Common_AddressDiscriminated) /\
  (exists k : SoftKey.t,
      2 ^ width ARM8_3_Key <= enum_unsigned (Enumerator k)).
Proof.
  repeat match goal with |- _ /\ _ => split end.
  1-5: intros x; destruct x;
    (split; [apply Z.leb_le | apply Z.ltb_lt]; reflexivity).
  exists SoftKey.CXXVTablePointers. apply Z.leb_le. reflexivity.
Qed.

Lemma Kind_init (mem : t) : get Common_Kind (init mem) = 0.
Proof. unfold init. read_back. reflexivity. Qed.

Lemma Kind_init_Soft mem k a d : get Common_Kind (init_Soft mem k a d) = 1.
Proof. unfold init_Soft. cbv zeta. read_back. reflexivity. Qed.

Lemma Kind_init_ARM8_3 mem k a d :
  get Common_Kind (init_ARM8_3 mem k a d) = 2.
Proof. unfold init_ARM8_3. cbv zeta. read_back. reflexivity. Qed.

(** The low eight bits of a storage unit, by member. *)
Lemma low_bits_Soft (s : t) :
  storage s mod 2 ^ 8
  = get Common_Kind s + 4 * get Common_AddressDiscriminated s
    + 8 * get Common_Discrimination s + 32 * get Soft_Key s.
Proof.
  rewrite <- (load_whole 8) by lia.
  rewrite (load_split 0 2 6), (load_split (0 + 2) 1 5),
    (load_split (0 + 2 + 1) 2 3) by lia.
  unfold get, Common_Kind, Common_AddressDiscriminated,
    Common_Discrimination, Soft_Key, NumKindBits.
  cbn [offset width Z.add Pos.add Pos.succ].
  change (2 ^ 2) with 4. change (2 ^ 1) with 2. lia.
Qed.

(** The low seven bits of a storage unit, by member. *)
Lemma low_bits_ARM8_3 (s : t) :
  storage s mod 2 ^ 7
  = get Common_Kind s + 4 * get Common_AddressDiscriminated s
    + 8 * get Common_Discrimination s + 32 * get ARM8_3_Key s.
Proof.
  rewrite <- (load_whole 7) by lia.
  rewrite (load_split 0 2 5), (load_split (0 + 2) 1 4),
    (load_split (0 + 2 + 1) 2 2) by lia.
  unfold get, Common_Kind, Common_AddressDiscriminated,
    Common_Discrimination, ARM8_3_Key, NumKindBits.
  cbn [offset width Z.add Pos.add Pos.succ].
  change (2 ^ 2) with 4. change (2 ^ 1) with 2. lia.
Qed.

(** A constructor keeps the bits above the members it assigns. *)
Lemma bits_above_init (mem : t) :
  Z.shiftr (storage (init mem)) 2 = Z.shiftr (storage mem) 2.
Proof.
  unfold init, set, Common_Kind, NumKindBits. cbn [storage offset width].
  apply store_above; lia.
Qed.

Lemma bits_above_init_Soft mem k a d :
  Z.shiftr (storage (init_Soft mem k a d)) 8 = Z.shiftr (storage mem) 8.
Proof.
  unfold init_Soft, set, Common_Kind, Common_AddressDiscriminated,
    Common_Discrimination, Soft_Key, NumKindBits.
  cbn [storage offset width Z.add Pos.add Pos.succ].
  rewrite !store_above by lia. reflexivity.
Qed.

Lemma bits_above_init_ARM8_3 mem k a d :
  Z.shiftr (storage (init_ARM8_3 mem k a d)) 7 = Z.shiftr (storage mem) 7.
Proof.
  unfold init_ARM8_3, set, Common_Kind, Common_AddressDiscriminated,
    Common_Discrimination, ARM8_3_Key, NumKindBits.
  cbn [storage offset width Z.add Pos.add Pos.succ].
  rewrite !store_above by lia. reflexivity.
Qed.

(** X11 (the encoding).  With the members allocated from the least
    significant bit, the software constructor writes the low eight bits of
    the storage unit, 1 + 4 a + 8 d + 32 k for key number k, address
    discrimination a and discrimination number d; the hardware constructor
    writes the low seven bits, 2 + 4 a + 8 d + 32 k, and leaves bit 7 as it
    found it; the default constructor clears the two kind bits.  The bits
    above are kept. *)
Theorem constructor_storage_encoding (mem : t) :
  storage (init mem) = 4 * (storage mem / 4) /\
  (forall k a d,
      storage (init_Soft mem k a d)
      = 256 * (storage mem / 256)
        + (1 + 4 * Z.b2z a + 8 * Discrimination.value d
           + 32 * SoftKey.value k)) /\
  (forall k a d,
      storage (init_ARM8_3 mem k a d)
      = 128 * (storage mem / 128)
        + (2 + 4 * Z.b2z a + 8 * Discrimination.value d
           + 32 * ARM8_3Key.value k)).
Proof.
  split; [| split].
  - rewrite (split_at (storage (init mem)) 2) at 1 by lia.
    rewrite bits_above_init, <- (load_whole 2) by lia.
    change (BitField.load 0 2 (storage (init mem)))
      with (get Common_Kind (init mem)).
    rewrite Kind_init, Z.shiftr_div_pow2 by lia.
    change (2 ^ 2) with 4. lia.
  - intros k a d.
    rewrite (split_at (storage (init_Soft mem k a d)) 8) at 1 by lia.
    rewrite bits_above_init_Soft, low_bits_Soft, Kind_init_Soft,
      AddressDiscriminated_init_Soft, Discrimination_init_Soft,
      Key_init_Soft, Z.shiftr_div_pow2 by lia.
    change (2 ^ 8) with 256. lia.
  - intros k a d.
    rewrite (split_at (storage (init_ARM8_3 mem k a d)) 7) at 1 by lia.
    rewrite bits_above_init_ARM8_3, low_bits_ARM8_3, Kind_init_ARM8_3,
      AddressDiscriminated_init_ARM8_3, Discrimination_init_ARM8_3,
      Key_init_ARM8_3, Z.shiftr_div_pow2 by lia.
    change (2 ^ 7) with 128. lia.
Qed.

End Extras.
